(** * LB: a round-robin HTTP load balancer (harshit0410/LB)

    Shallow embedding of [main.go] (and of its older variant, which differs
    only in the health-check loop and in the absence of the reload endpoint)
    together with the properties of its routing, retry/failover, reload and
    health-check logic.

    Layout: Go integers, request contexts, the server pool, the environment
    (library calls whose outcome the program only observes), the router, the
    configuration paths, the health-check loop; then the theorems. *)

From Stdlib Require Import Ascii.
From stdpp Require Import base numbers list strings.

Open Scope Z_scope.

(** ** Go's [int] on a 64-bit platform *)

Module GoInt.

Definition min_int : Z := - 2 ^ 63.
Definition max_int : Z := 2 ^ 63 - 1.

(** Two's-complement wrap-around of a mathematical integer. *)
Definition wrap (z : Z) : Z := (z + 2 ^ 63) mod 2 ^ 64 - 2 ^ 63.

Definition add (a b : Z) : Z := wrap (a + b).

Definition in_range (z : Z) : Prop := min_int <= z <= max_int.

End GoInt.

(** ** Request contexts

    A [context.Context] is a chain of key/value pairs; [Value] returns the
    innermost binding of a key.  Keys and values are [interface{}]: two keys
    are equal when both their dynamic type and their value agree. *)

Inductive Key : Type :=
| KInt (n : Z)            (* a key of dynamic type [int] *)
| KOther (name : string). (* a key of any other dynamic type *)

Inductive Value : Type :=
| VInt (n : Z)            (* a value of dynamic type [int] *)
| VOther (repr : string). (* a value of any other dynamic type *)

Global Instance Key_eq_dec : EqDecision Key.
Proof. solve_decision. Defined.

Global Instance Value_eq_dec : EqDecision Value.
Proof. solve_decision. Defined.

Definition Context : Type := list (Key * Value).

Definition WithValue (c : Context) (k : Key) (v : Value) : Context :=
  (k, v) :: c.

Fixpoint ctx_Value (c : Context) (k : Key) : option Value :=
  match c with
  | [] => None
  | (k', v) :: parent => if decide (k' = k) then Some v else ctx_Value parent k
  end.

(** The type assertion [x.(int)] with the comma-ok form. *)
Definition assert_int (x : option Value) : option Z :=
  match x with
  | Some (VInt n) => Some n
  | _ => None
  end.

Record Request : Type := mkRequest {
  RemoteAddr : string;
  Path : string;
  Ctx : Context
}.

Definition WithContext (r : Request) (c : Context) : Request :=
  {| RemoteAddr := RemoteAddr r; Path := Path r; Ctx := c |}.

(** [const ( Attempts int = iota; Retry )] *)
Definition Attempts : Key := KInt 0.
Definition Retry : Key := KInt 1.

Definition GetAttemptsFromContext (r : Request) : Z :=
  match assert_int (ctx_Value (Ctx r) Attempts) with
  | Some attempts => attempts
  | None => 1
  end.

Definition GetRetryFromContext (r : Request) : Z :=
  match assert_int (ctx_Value (Ctx r) Retry) with
  | Some retry => retry
  | None => 0
  end.

(** ** The server pool

    The router only uses the pool through [AddBackend], [RemoveAllBackend],
    [MarkBackendStatus], [GetNextPeer] and [HealthCheck]; a backend's
    [ReverseProxy] is built from its URL alone, so a backend is identified
    here by its URL and its liveness flag. *)

Module backend.

Record Backend : Type := mkBackend {
  URL : string;
  Alive : bool
}.

(** Modelled from the spec: the package [backend] is not part of the
    sources at hand; [SetAlive] is its liveness mutator. *)
Definition SetAlive (b : Backend) (alive : bool) : Backend :=
  {| URL := URL b; Alive := alive |}.

End backend.

Import backend.

Module serverpool.

Record ServerPool : Type := mkPool {
  backends : list Backend;
  current : nat
}.

(** Modelled from the spec: the package [serverpool] is not part of the
    sources at hand.  The pool is created empty, with its cursor at zero. *)
Definition empty_pool : ServerPool := {| backends := []; current := 0%nat |}.

(** Modelled from the spec: [serverpool.AddBackend] is missing; it appends
    to [backends]. *)
Definition AddBackend (p : ServerPool) (b : Backend) : ServerPool :=
  {| backends := backends p ++ [b]; current := current p |}.

(** Modelled from the spec: [serverpool.RemoveAllBackend] is missing; it
    clears [backends] to empty. *)
Definition RemoveAllBackend (p : ServerPool) : ServerPool :=
  {| backends := []; current := current p |}.

Fixpoint mark_first (bs : list Backend) (u : string) (alive : bool)
  : list Backend :=
  match bs with
  | [] => []
  | b :: rest =>
      if decide (URL b = u) then SetAlive b alive :: rest
      else b :: mark_first rest u alive
  end.

(** Modelled from the spec: [serverpool.MarkBackendStatus] is missing; it
    looks the backend up by address with a linear scan and sets its
    liveness, and does nothing when the address is not found. *)
Definition MarkBackendStatus (p : ServerPool) (u : string) (alive : bool)
  : ServerPool :=
  {| backends := mark_first (backends p) u alive; current := current p |}.

(** The circular scan of [GetNextPeer]: positions [start + i], ...,
    [start + i + k - 1] modulo the length, first alive backend wins. *)
Fixpoint scan (bs : list Backend) (start i k : nat) : option Backend :=
  match k with
  | O => None
  | S k' =>
      match bs !! ((start + i) mod length bs)%nat with
      | Some b => if Alive b then Some b else scan bs start (S i) k'
      | None => None
      end
  end.

(** Modelled from the spec: [serverpool.GetNextPeer] is missing.
    1. let [n = len(backends)]; if [n = 0] return none;
    2. start at [cursor.increment() mod n] and scan forward circularly
       through at most [n] positions;
    3. return the first backend of the scan that is alive;
    4. if none is alive return none. *)
Definition GetNextPeer (p : ServerPool) : option Backend * ServerPool :=
  let n := length (backends p) in
  if (n =? 0)%nat then (None, p)
  else
    let next := S (current p) in
    (scan (backends p) (next mod n)%nat 0 n,
     {| backends := backends p; current := next |}).

(** Modelled from the spec: [serverpool.HealthCheck] is missing; it probes
    every backend and sets its liveness to the result of the probe. *)
Definition HealthCheck (probe : string -> bool) (p : ServerPool)
  : ServerPool :=
  {| backends := map (fun b => SetAlive b (probe (URL b))) (backends p);
     current := current p |}.

End serverpool.

Import serverpool.

(** ** The router

    What the program does to the outside world, in order. *)
Inductive Event : Type :=
| EvSelect (peer : option string)               (* GetNextPeer and its result *)
| EvForward (u : string) (retry : Z) (ok : bool) (* proxy.ServeHTTP on [u] *)
| EvBackoff (ms : Z)                             (* <-time.After(ms) *)
| EvMarkDown (u : string)                        (* MarkBackendStatus(u, false) *)
| EvRespond (status : Z).                        (* status written to the client *)

Global Instance Event_eq_dec : EqDecision Event.
Proof. solve_decision. Defined.

(** The transport behind [httputil.ReverseProxy]: the outcome of the [n]-th
    round trip of the process, sent to backend [u]; [Some status] is the
    upstream's response, [None] a transport error. *)
Definition Transport : Type := nat -> string -> option Z.

Record World : Type := mkWorld {
  pool : ServerPool;
  forwards : nat;
  trace : list Event
}.

Definition emit (e : Event) (w : World) : World :=
  {| pool := pool w; forwards := forwards w; trace := trace w ++ [e] |}.

Definition set_pool (p : ServerPool) (w : World) : World :=
  {| pool := p; forwards := forwards w; trace := trace w |}.

Definition count_forward (w : World) : World :=
  {| pool := pool w; forwards := S (forwards w); trace := trace w |}.

Definition StatusServiceUnavailable : Z := 503.
Definition StatusBadRequest : Z := 400.
Definition StatusOK : Z := 200.

(** [LB], [proxy.ServeHTTP] and [proxy.ErrorHandler] call one another; the
    recursion is cut by a step budget, [None] meaning the budget ran out. *)
Fixpoint LB_rec (T : Transport) (fuel : nat) (w : World) (r : Request)
  {struct fuel} : option World :=
  match fuel with
  | O => None
  | S fuel' =>
      let attempts := GetAttemptsFromContext r in
      if 3 <? attempts then Some (emit (EvRespond StatusServiceUnavailable) w)
      else
        match GetNextPeer (pool w) with
        | (Some peer, p') =>
            ServeHTTP_rec T fuel' (URL peer)
              (emit (EvSelect (Some (URL peer))) (set_pool p' w)) r
        | (None, p') =>
            Some (emit (EvRespond StatusServiceUnavailable)
                    (emit (EvSelect None) (set_pool p' w)))
        end
  end
with ServeHTTP_rec (T : Transport) (fuel : nat) (u : string) (w : World)
  (r : Request) {struct fuel} : option World :=
  match fuel with
  | O => None
  | S fuel' =>
      let w1 := count_forward w in
      match T (forwards w) u with
      | Some status =>
          Some (emit (EvRespond status)
                  (emit (EvForward u (GetRetryFromContext r) true) w1))
      | None =>
          ErrorHandler_rec T fuel' u
            (emit (EvForward u (GetRetryFromContext r) false) w1) r
      end
  end
with ErrorHandler_rec (T : Transport) (fuel : nat) (u : string) (w : World)
  (r : Request) {struct fuel} : option World :=
  match fuel with
  | O => None
  | S fuel' =>
      let retries := GetRetryFromContext r in
      if retries <? 3 then
        let ctx := WithValue (Ctx r) Retry (VInt (GoInt.add retries 1)) in
        ServeHTTP_rec T fuel' u (emit (EvBackoff 10) w) (WithContext r ctx)
      else
        let w1 := emit (EvMarkDown u)
                    (set_pool (MarkBackendStatus (pool w) u false) w) in
        let attempts := GetAttemptsFromContext r in
        let ctx := WithValue (Ctx r) Attempts (VInt (GoInt.add attempts 1)) in
        LB_rec T fuel' w1 (WithContext r ctx)
  end.

(** Steps that always suffice for one call of [LB] on [r]. *)
Definition budget (r : Request) : nat :=
  (3 * Z.to_nat (4 - GetAttemptsFromContext r)
   + 2 * Z.to_nat (3 - GetRetryFromContext r) + 1)%nat.

Definition LB (T : Transport) (w : World) (r : Request) : option World :=
  LB_rec T (budget r) w r.

(** The events a run added to the trace. *)
Definition new_events (w w' : World) : list Event :=
  drop (length (trace w)) (trace w').

Definition is_select (e : Event) : bool :=
  match e with EvSelect _ => true | _ => false end.

Definition is_forward_to (u : string) (e : Event) : bool :=
  match e with EvForward u' _ _ => bool_decide (u' = u) | _ => false end.

Fixpoint count_events (f : Event -> bool) (es : list Event) : nat :=
  match es with
  | [] => 0
  | e :: rest => ((if f e then 1 else 0) + count_events f rest)%nat
  end.

Definition selections (es : list Event) : nat := count_events is_select es.

Definition forwards_to (u : string) (es : list Event) : nat :=
  count_events (is_forward_to u) es.

(** ** Configuration: startup and reload *)

Record Config : Type := mkConfig {
  Port : string;
  Urls : list string
}.

Definition zero_Config : Config := {| Port := EmptyString; Urls := [] |}.

(** Library calls whose results the program only observes.
    - [url_Parse tok]: the parsed URL in its printed form, or [None] on error;
    - [json_Unmarshal data]: the struct as decoded into a zero [Config], and
      whether [err == nil];
    - [json_Marshal c]: the encoding of [c] (it cannot fail on a [Config]);
    - [ioutil_WriteFile old data]: the file afterwards and whether
      [err == nil]. *)
Record Env : Type := mkEnv {
  url_Parse : string -> option string;
  json_Unmarshal : string -> Config * bool;
  json_Marshal : Config -> string;
  ioutil_WriteFile : option string -> string -> option string * bool
}.

(** The package-level pool and the file [config.json] ([None]: no file). *)
Record Proc : Type := mkProc {
  serverPool : ServerPool;
  config_json : option string
}.

(** A handler or [main] either gets to its end or stops the process through
    [log.Fatal]; the state at that moment is kept in both cases. *)
Inductive Run (A : Type) : Type :=
| Done (a : A) (s : Proc)
| Fatal (s : Proc).

Arguments Done {A} a s.
Arguments Fatal {A} s.


Definition is_fatal {A : Type} (x : Run A) : bool :=
  match x with Done _ _ => false | Fatal _ => true end.

Definition with_pool (p : ServerPool) (s : Proc) : Proc :=
  {| serverPool := p; config_json := config_json s |}.

Definition with_file (f : option string) (s : Proc) : Proc :=
  {| serverPool := serverPool s; config_json := f |}.

(** [addServerToPool]: the loop over [serverList], on the pool alone;
    [inr p] is [log.Fatal] reached with the pool in state [p]. *)
Fixpoint addServerToPool_loop (E : Env) (serverList : list string)
  (p : ServerPool) : ServerPool + ServerPool :=
  match serverList with
  | [] => inl p
  | tok :: rest =>
      match url_Parse E tok with
      | None => inr p
      | Some serverUrl =>
          addServerToPool_loop E rest
            (AddBackend p {| URL := serverUrl; Alive := true |})
      end
  end.

Definition addServerToPool (E : Env) (serverList : list string) (s : Proc)
  : Run unit :=
  match addServerToPool_loop E serverList (serverPool s) with
  | inl p => Done tt (with_pool p s)
  | inr p => Fatal (with_pool p s)
  end.

(** [main] up to the point where the servers and the health checker are
    started; it returns the port the balancer listens on. *)
Definition main (E : Env) (s : Proc) : Run string :=
  match config_json s with
  | None => Fatal s
  | Some data =>
      let cfg := fst (json_Unmarshal E data) in
      if (length (Urls cfg) =? 0)%nat then Fatal s
      else
        match addServerToPool E (Urls cfg) s with
        | Fatal s' => Fatal s'
        | Done _ s' =>
            Done (if decide (Port cfg = EmptyString) then "3000"%string
                  else Port cfg) s'
        end
  end.

Record Response : Type := mkResponse {
  Status : Z;
  Body : string
}.

Definition newline : string := String (Ascii.ascii_of_nat 10) EmptyString.

Definition UpdateConfig (E : Env) (requestBody : string) (s : Proc)
  : Run Response :=
  let (inputConfig, ok) := json_Unmarshal E requestBody in
  if negb ok then
    Done {| Status := StatusBadRequest; Body := EmptyString |} s
  else
    let content := json_Marshal E inputConfig in
    let s1 := with_file (fst (ioutil_WriteFile E (config_json s) content)) s in
    let s2 := with_pool (RemoveAllBackend (serverPool s1)) s1 in
    match addServerToPool E (Urls inputConfig) s2 with
    | Fatal s3 => Fatal s3
    | Done _ s3 =>
        Done {| Status := StatusOK;
                Body := json_Marshal E inputConfig +:+ newline |} s3
    end.

(** ** The health-check loop

    [HealthCheck] is a [for { select { ... } }] over the ticker's channel and
    [ctx.Done()].  The ticker fires and the context is cancelled by the
    environment; the loop takes one of the cases that are ready. *)

Inductive Label : Type :=
| TickFires   (* the ticker sends on [t.C] (a buffer of one) *)
| Cancel      (* the shutdown signal cancels [ctx] *)
| TakeTick    (* select takes [case <-t.C] *)
| TakeDone.   (* select takes [case <-ctx.Done()] *)

Global Instance Label_eq_dec : EqDecision Label.
Proof. solve_decision. Defined.

Record Checker : Type := mkChecker {
  hc_pool : ServerPool;
  cycles : nat;        (* calls of serverPool.HealthCheck so far *)
  tick_ready : bool;
  ctx_done : bool;
  returned : bool
}.

(** [probe n u]: whether backend [u] is reachable during cycle [n]. *)
Definition Probes : Type := nat -> string -> bool.

Definition HealthCheck_step (probe : Probes) (c : Checker) (l : Label)
  : option Checker :=
  match l with
  | TickFires =>
      Some {| hc_pool := hc_pool c; cycles := cycles c; tick_ready := true;
              ctx_done := ctx_done c; returned := returned c |}
  | Cancel =>
      Some {| hc_pool := hc_pool c; cycles := cycles c;
              tick_ready := tick_ready c; ctx_done := true;
              returned := returned c |}
  | TakeTick =>
      if returned c then None
      else if tick_ready c then
        Some {| hc_pool := serverpool.HealthCheck (probe (cycles c)) (hc_pool c);
                cycles := S (cycles c); tick_ready := false;
                ctx_done := ctx_done c; returned := false |}
      else None
  | TakeDone =>
      if returned c then None
      else if ctx_done c then
        Some {| hc_pool := hc_pool c; cycles := cycles c;
                tick_ready := tick_ready c; ctx_done := true;
                returned := true |}
      else None
  end.

(** The loop of the older variant: its select has the ticker case only. *)
Definition HealthCheck_step_old (probe : Probes) (c : Checker) (l : Label)
  : option Checker :=
  match l with
  | TakeDone => None
  | _ => HealthCheck_step probe c l
  end.

Fixpoint run_labels (step : Checker -> Label -> option Checker)
  (ls : list Label) (c : Checker) : option Checker :=
  match ls with
  | [] => Some c
  | l :: rest =>
      match step c l with
      | Some c' => run_labels step rest c'
      | None => None
      end
  end.

Definition HealthCheck (probe : Probes) : list Label -> Checker -> option Checker :=
  run_labels (HealthCheck_step probe).

Definition start_checker (p : ServerPool) : Checker :=
  {| hc_pool := p; cycles := 0%nat; tick_ready := false; ctx_done := false;
     returned := false |}.

(** The wake-ups of the loop on the ticker within a schedule. *)
Fixpoint wakeups (ls : list Label) : nat :=
  match ls with
  | [] => 0
  | TakeTick :: rest => S (wakeups rest)
  | _ :: rest => wakeups rest
  end.

(** ** A concrete environment

    An instance of [Env] to run the definitions on: the decoder reads the
    canonical form that the encoder emits (no white space, no escapes) and
    refuses everything else; the URL parser refuses control bytes and a
    leading colon, as [url.Parse] does, and accepts the rest unchanged;
    writing the file always succeeds. *)

Module Sample.

Definition dq_char : Ascii.ascii := Ascii.ascii_of_nat 34.
Definition backslash : Ascii.ascii := Ascii.ascii_of_nat 92.
Definition dq : string := String dq_char EmptyString.
Definition quote (s : string) : string := dq +:+ s +:+ dq.

Definition plain (c : Ascii.ascii) : bool :=
  negb (Ascii.eqb c dq_char) && negb (Ascii.eqb c backslash)
  && (32 <=? Ascii.nat_of_ascii c)%nat.

(** After an opening quote: the content up to the closing quote, and what
    follows it. *)
Fixpoint read_string (s : string) : option (string * string) :=
  match s with
  | EmptyString => None
  | String c rest =>
      if Ascii.eqb c dq_char then Some (EmptyString, rest)
      else if plain c then
        match read_string rest with
        | Some (x, rest') => Some (String c x, rest')
        | None => None
        end
      else None
  end.

Definition expect (p s : string) : option string :=
  if String.prefix p s
  then Some (String.substring (String.length p)
               (String.length s - String.length p) s)
  else None.

(** After the opening quote of an element of a non-empty array. *)
Fixpoint read_elems (fuel : nat) (s : string) : option (list string * string) :=
  match fuel with
  | O => None
  | S fuel' =>
      match read_string s with
      | Some (x, String c rest) =>
          if Ascii.eqb c "]"%char then Some ([x], rest)
          else if Ascii.eqb c ","%char then
            match rest with
            | String c' rest' =>
                if Ascii.eqb c' dq_char then
                  match read_elems fuel' rest' with
                  | Some (xs, rest'') => Some (x :: xs, rest'')
                  | None => None
                  end
                else None
            | EmptyString => None
            end
          else None
      | _ => None
      end
  end.

Definition read_array (s : string) : option (list string * string) :=
  match s with
  | String c (String c' rest) =>
      if negb (Ascii.eqb c "["%char) then None
      else if Ascii.eqb c' "]"%char then Some ([], rest)
      else if Ascii.eqb c' dq_char then read_elems (String.length rest) rest
      else None
  | _ => None
  end.

Definition decode (data : string) : option Config :=
  match expect ("{" +:+ quote "port" +:+ ":" +:+ dq) data with
  | None => None
  | Some s1 =>
      match read_string s1 with
      | None => None
      | Some (port, s2) =>
          match expect ("," +:+ quote "urls" +:+ ":") s2 with
          | None => None
          | Some s3 =>
              match read_array s3 with
              | Some (urls, s4) =>
                  if decide (s4 = "}"%string)
                  then Some {| Port := port; Urls := urls |} else None
              | None => None
              end
          end
      end
  end.

Definition encode (c : Config) : string :=
  "{" +:+ quote "port" +:+ ":" +:+ quote (Port c) +:+ ","
  +:+ quote "urls" +:+ ":[" +:+ String.concat "," (map quote (Urls c))
  +:+ "]}".

Definition is_ctl (c : Ascii.ascii) : bool :=
  (Ascii.nat_of_ascii c <? 32)%nat || (Ascii.nat_of_ascii c =? 127)%nat.

Fixpoint has_ctl (s : string) : bool :=
  match s with
  | EmptyString => false
  | String c rest => is_ctl c || has_ctl rest
  end.

Definition parse_url (tok : string) : option string :=
  if has_ctl tok then None
  else
    match tok with
    | String c _ => if Ascii.eqb c ":"%char then None else Some tok
    | EmptyString => Some tok
    end.

Definition env : Env :=
  {| url_Parse := parse_url;
     json_Unmarshal := fun data =>
       match decode data with
       | Some c => (c, true)
       | None => (zero_Config, false)
       end;
     json_Marshal := encode;
     ioutil_WriteFile := fun _ data => (Some data, true) |}.

Definition fresh_request : Request :=
  {| RemoteAddr := "10.0.0.7:51234"; Path := "/"; Ctx := [] |}.

(** A request that has already been through three failovers. *)
Definition exhausted_request : Request :=
  WithContext fresh_request (WithValue [] Attempts (VInt 4)).

(** Every round trip fails. *)
Definition all_down : Transport := fun _ _ => None.

Definition pool3 : ServerPool :=
  {| backends := [ {| URL := "http://a:8081"; Alive := true |};
                   {| URL := "http://b:8082"; Alive := true |};
                   {| URL := "http://c:8083"; Alive := true |} ];
     current := 0%nat |}.

Definition pool4 : ServerPool :=
  AddBackend pool3 {| URL := "http://d:8084"; Alive := true |}.

Definition world (p : ServerPool) : World :=
  {| pool := p; forwards := 0%nat; trace := [] |}.

Definition one_alive : ServerPool :=
  MarkBackendStatus (MarkBackendStatus pool3 "http://a:8081" false)
    "http://c:8083" false.

Definition all_dead : ServerPool :=
  MarkBackendStatus one_alive "http://b:8082" false.

(** Reload payloads: one without backends, one whose second URL lacks its
    scheme, one that is not JSON. *)
Definition no_urls : Config := {| Port := "3000"; Urls := [] |}.
Definition bad_url : Config :=
  {| Port := "3000"; Urls := ["http://e:8085"; ":8086"; "http://f:8087"] |}.
Definition not_json : string := "urls=http://e:8085".

Definition two_urls : Config :=
  {| Port := EmptyString; Urls := ["http://e:8085"; "http://f:8087"] |}.

Definition running : Proc :=
  {| serverPool := pool3;
     config_json :=
       Some (encode {| Port := "3000";
                       Urls := ["http://a:8081"; "http://b:8082";
                                "http://c:8083"] |}) |}.

End Sample.

(** ** Vocabulary of the statements *)

(** The backend that [addServerToPool] builds for a parsed URL. *)
Definition alive_backend (u : string) : Backend := {| URL := u; Alive := true |}.

(** A new process on the same file system. *)
Definition restart (s : Proc) : Proc :=
  {| serverPool := empty_pool; config_json := config_json s |}.

Definition is_mark_down (e : Event) : bool :=
  match e with EvMarkDown _ => true | _ => false end.

Definition mark_downs (es : list Event) : nat := count_events is_mark_down es.

(** The counters of a request are Go integers. *)
Definition wf_request (r : Request) : Prop :=
  GoInt.in_range (GetAttemptsFromContext r)
  /\ GoInt.in_range (GetRetryFromContext r).

(** Backend selections and same-backend retries a request has left. *)
Definition attempts_left (r : Request) : nat :=
  Z.to_nat (4 - GetAttemptsFromContext r).

Definition retries_left (r : Request) : nat :=
  Z.to_nat (3 - GetRetryFromContext r).

(** Shape of the events of a run: at most [sel] selections and [down]
    backends marked down; when [down] backends were marked down the run made
    exactly [sel] selections and ended with a 503. *)
Definition run_shape (sel down : nat) (es : list Event) : Prop :=
  (selections es <= sel)%nat
  /\ (mark_downs es <= down)%nat
  /\ (mark_downs es = down ->
      selections es = sel
      /\ last es = Some (EvRespond StatusServiceUnavailable)).

(** The request handed to [LB] when the error handler gives up on a
    backend, and the one handed to [proxy.ServeHTTP] for a retry. *)
Definition failover_request (r : Request) : Request :=
  WithContext r
    (WithValue (Ctx r) Attempts (VInt (GoInt.add (GetAttemptsFromContext r) 1))).

Definition retry_request (r : Request) : Request :=
  WithContext r
    (WithValue (Ctx r) Retry (VInt (GoInt.add (GetRetryFromContext r) 1))).


Definition parses_to (E : Env) (tok u : string) : Prop :=
  url_Parse E tok = Some u.

(** ** Vocabulary of the further properties *)


Definition is_forward (e : Event) : bool :=
  match e with EvForward _ _ _ => true | _ => false end.

Definition is_backoff (e : Event) : bool :=
  match e with EvBackoff _ => true | _ => false end.

Definition round_trips (es : list Event) : nat := count_events is_forward es.
Definition backoffs (es : list Event) : nat := count_events is_backoff es.




(** A backend list obtained from another without adding, removing, renaming
    or reviving a backend. *)
Definition no_revival (bs bs' : list Backend) : Prop :=
  Forall2 (fun b b' => URL b' = URL b /\ (Alive b' = true -> Alive b = true))
    bs bs'.

(** The addresses of the two servers that [main] sets up: the balancer on
    [fmt.Sprintf(":%s", cfg.Port)], the reload endpoint on [":3000"]. *)
Definition server_Addr (port : string) : string := ":" +:+ port.
Definition server2_Addr : string := ":3000".

(** The ticks the ticker sent within a schedule. *)
Fixpoint ticks_fired (ls : list Label) : nat :=
  match ls with
  | [] => 0
  | TickFires :: rest => S (ticks_fired rest)
  | _ :: rest => ticks_fired rest
  end.

Definition pending (c : Checker) : nat := if tick_ready c then 1 else 0.

Definition parses (E : Env) (tok : string) : Prop := is_Some (url_Parse E tok).

(** * Properties *)

(** ** Integers and contexts *)

Lemma wrap_in_range (z : Z) : GoInt.in_range z -> GoInt.wrap z = z.
Proof.
  unfold GoInt.in_range, GoInt.wrap, GoInt.min_int, GoInt.max_int.
  intros Hz. rewrite Z.mod_small; lia.
Qed.

Lemma add_one_small (z : Z) :
  GoInt.in_range z -> z <= 3 -> GoInt.add z 1 = z + 1.
Proof.
  intros Hz Hle. apply wrap_in_range.
  unfold GoInt.in_range, GoInt.min_int, GoInt.max_int in *. lia.
Qed.

Lemma retry_after_retry (r : Request) (n : Z) :
  GetRetryFromContext (WithContext r (WithValue (Ctx r) Retry (VInt n))) = n.
Proof. reflexivity. Qed.

Lemma attempts_after_retry (r : Request) (n : Z) :
  GetAttemptsFromContext (WithContext r (WithValue (Ctx r) Retry (VInt n)))
  = GetAttemptsFromContext r.
Proof. reflexivity. Qed.

Lemma attempts_after_attempts (r : Request) (n : Z) :
  GetAttemptsFromContext (WithContext r (WithValue (Ctx r) Attempts (VInt n)))
  = n.
Proof. reflexivity. Qed.

Lemma retry_after_attempts (r : Request) (n : Z) :
  GetRetryFromContext (WithContext r (WithValue (Ctx r) Attempts (VInt n)))
  = GetRetryFromContext r.
Proof. reflexivity. Qed.

(** C8: a request whose context carries no attempts value counts as attempt
    1, one whose context carries no retry value counts as retry 0, and a
    stored integer is returned as it is by both functions. *)
Theorem C8_context_counters (r : Request) :
  (ctx_Value (Ctx r) Attempts = None -> GetAttemptsFromContext r = 1)
  /\ (ctx_Value (Ctx r) Retry = None -> GetRetryFromContext r = 0)
  /\ (forall n, ctx_Value (Ctx r) Attempts = Some (VInt n) ->
        GetAttemptsFromContext r = n)
  /\ (forall n, ctx_Value (Ctx r) Retry = Some (VInt n) ->
        GetRetryFromContext r = n).
Proof.
  unfold GetAttemptsFromContext, GetRetryFromContext.
  repeat split; intros; match goal with H : _ = _ |- _ => rewrite H end;
    reflexivity.
Qed.

Lemma C8_context_counters_witness :
  GetAttemptsFromContext Sample.fresh_request = 1
  /\ GetRetryFromContext Sample.fresh_request = 0
  /\ GetAttemptsFromContext
       (WithContext Sample.fresh_request
          (WithValue (WithValue [] Retry (VInt 3)) Attempts (VInt 2))) = 2
  /\ GetRetryFromContext
       (WithContext Sample.fresh_request
          (WithValue (WithValue [] Retry (VInt 3)) Attempts (VInt 2))) = 3.
Proof.
  split; [| split; [| split]].
  - apply (proj1 (C8_context_counters Sample.fresh_request)). reflexivity.
  - apply (proj1 (proj2 (C8_context_counters Sample.fresh_request))).
    reflexivity.
  - apply (proj1 (proj2 (proj2 (C8_context_counters _)))). reflexivity.
  - apply (proj2 (proj2 (proj2 (C8_context_counters _)))). reflexivity.
Defined.

(** ** Startup and reload *)

Section Configuration.

Variable E : Env.

Lemma loop_done (serverList : list string) :
  forall p p',
    addServerToPool_loop E serverList p = inl p' ->
    exists urls,
      Forall2 (parses_to E) serverList urls
      /\ backends p' = backends p ++ map alive_backend urls
      /\ current p' = current p.
Proof.
  induction serverList as [| tok rest IH]; intros p p' Hrun; simpl in Hrun.
  - injection Hrun as <-. exists []. rewrite app_nil_r. auto.
  - destruct (url_Parse E tok) as [u |] eqn:Hu; [| discriminate].
    destruct (IH _ _ Hrun) as (urls & Hall & Hbs & Hcur).
    exists (u :: urls). split; [constructor; assumption |].
    split; [| exact Hcur].
    rewrite Hbs. simpl. rewrite <- app_assoc. reflexivity.
Qed.


(** A list with a URL that does not parse splits at the first such URL. *)
Lemma first_bad_split (serverList : list string) :
  Exists (fun tok => url_Parse E tok = None) serverList ->
  exists good bad rest,
    serverList = good ++ bad :: rest
    /\ Forall (fun tok => is_Some (url_Parse E tok)) good
    /\ url_Parse E bad = None.
Proof.
  induction serverList as [| tok l IH]; intros Hex.
  - inversion Hex.
  - destruct (url_Parse E tok) as [u |] eqn:Hu.
    + inversion Hex as [? ? Hhd | ? ? Htl]; subst; [congruence |].
      destruct (IH Htl) as (good & bad & rest & -> & Hgood & Hbad).
      exists (tok :: good), bad, rest. split; [reflexivity |].
      split; [constructor; eauto | exact Hbad].
    + exists [], tok, l. auto.
Qed.

End Configuration.

(** C6: a reload whose payload does not parse is answered with 400 Bad
    Request, and neither the pool nor the configuration file has changed when
    the handler returns; the pool is cleared only after the decoding
    succeeded. *)
Theorem C6_reload_parse_failure (E : Env) (requestBody : string) (s : Proc) :
  snd (json_Unmarshal E requestBody) = false ->
  UpdateConfig E requestBody s
  = Done {| Status := StatusBadRequest; Body := EmptyString |} s.
Proof.
  intros Herr. unfold UpdateConfig.
  destruct (json_Unmarshal E requestBody) as [inputConfig ok].
  simpl in Herr. subst ok. reflexivity.
Qed.

Lemma C6_reload_parse_failure_witness :
  snd (json_Unmarshal Sample.env Sample.not_json) = false
  /\ UpdateConfig Sample.env Sample.not_json Sample.running
     = Done {| Status := 400; Body := EmptyString |} Sample.running.
Proof.
  split; [reflexivity |].
  apply (C6_reload_parse_failure Sample.env Sample.not_json Sample.running).
  reflexivity.
Defined.



(** C5: the startup path refuses an empty list of URLs, the reload path does
    not.  At a payload without URLs the reload answers 200 and leaves the
    pool empty, while [main] stops in [log.Fatal] on that same
    configuration. *)
Theorem C5_reload_without_urls_empties_pool :
  length (backends (serverPool Sample.running)) = 3%nat
  /\ (exists resp s',
        UpdateConfig Sample.env (Sample.encode Sample.no_urls) Sample.running
        = Done resp s'
        /\ Status resp = StatusOK
        /\ backends (serverPool s') = []
        /\ is_fatal (main Sample.env (restart s')) = true).
Proof.
  split; [reflexivity |].
  eexists _, _. split; [vm_compute; reflexivity |].
  split; [reflexivity |]. split; reflexivity.
Qed.

(** ** Selection *)

Section Selection.

Variable bs : list Backend.


Lemma scan_alive (start k : nat) :
  forall i b, scan bs start i k = Some b -> Alive b = true /\ b ∈ bs.
Proof.
  induction k as [| k IH]; intros i b Hscan; simpl in Hscan; [discriminate |].
  destruct (bs !! ((start + i) mod length bs)%nat) as [c |] eqn:Hc;
    [| discriminate].
  destruct (Alive c) eqn:Ha.
  - injection Hscan as <-. split; [exact Ha |].
    apply list_elem_of_lookup. eauto.
  - eauto.
Qed.

Lemma scan_all_dead (start k : nat) :
  (forall b, b ∈ bs -> Alive b = false) ->
  forall i, scan bs start i k = None.
Proof.
  intros Hdead. induction k as [| k IH]; intros i; simpl; [reflexivity |].
  destruct (bs !! ((start + i) mod length bs)%nat) as [c |] eqn:Hc;
    [| reflexivity].
  rewrite (Hdead c); [apply IH |].
  apply list_elem_of_lookup. eauto.
Qed.

(** A scan that finds nothing has seen a dead backend at each position. *)
Lemma scan_none (start k : nat) :
  forall i, scan bs start i k = None ->
  forall j, (i <= j < i + k)%nat ->
    forall b, bs !! ((start + j) mod length bs)%nat = Some b ->
      Alive b = false.
Proof.
  induction k as [| k IH]; intros i Hscan j Hj b Hb; [lia |].
  simpl in Hscan.
  destruct (decide (j = i)) as [-> | Hne].
  - rewrite Hb in Hscan. destruct (Alive b); [discriminate | reflexivity].
  - destruct (bs !! ((start + i) mod length bs)%nat) as [c |] eqn:Hc.
    + destruct (Alive c); [discriminate |].
      apply (IH (S i) Hscan j); [lia | exact Hb].
    + apply lookup_ge_None in Hc.
      pose proof (lookup_lt_Some _ _ _ Hb) as Hlt.
      assert (length bs <> 0)%nat by lia.
      pose proof (Nat.mod_upper_bound (start + i) (length bs)). lia.
Qed.

(** The circular scan reaches every index. *)
Lemma scan_covers (start idx : nat) :
  (idx < length bs)%nat ->
  exists j, (j < length bs)%nat /\ ((start + j) mod length bs)%nat = idx.
Proof.
  intros Hidx. set (n := length bs) in *.
  assert (Hn : n <> 0%nat) by lia.
  pose proof (Nat.mod_upper_bound start n Hn) as Hs.
  pose proof (Nat.div_mod_eq start n) as Hdm.
  destruct (le_lt_dec (start mod n) idx) as [Hle | Hgt].
  - exists (idx - start mod n)%nat. split; [lia |].
    replace (start + (idx - start mod n))%nat
      with (idx + (start / n) * n)%nat by lia.
    rewrite Nat.Div0.mod_add. apply Nat.mod_small. exact Hidx.
  - exists (idx + n - start mod n)%nat. split; [lia |].
    replace (start + (idx + n - start mod n))%nat
      with (idx + (S (start / n)) * n)%nat by lia.
    rewrite Nat.Div0.mod_add. apply Nat.mod_small. exact Hidx.
Qed.

End Selection.

Lemma GetNextPeer_alive (p p' : ServerPool) (b : Backend) :
  GetNextPeer p = (Some b, p') -> Alive b = true /\ b ∈ backends p.
Proof.
  unfold GetNextPeer.
  destruct (length (backends p) =? 0)%nat; [discriminate |].
  intros Heq. injection Heq as Hscan _. eapply scan_alive. exact Hscan.
Qed.

Lemma GetNextPeer_all_dead (p : ServerPool) :
  (forall b, b ∈ backends p -> Alive b = false) ->
  fst (GetNextPeer p) = None.
Proof.
  intros Hdead. unfold GetNextPeer.
  destruct (length (backends p) =? 0)%nat; [reflexivity |].
  simpl. apply scan_all_dead. exact Hdead.
Qed.

Lemma GetNextPeer_some (p : ServerPool) :
  (exists b, b ∈ backends p /\ Alive b = true) ->
  exists b p', GetNextPeer p = (Some b, p').
Proof.
  intros (b & Hin & Ha). unfold GetNextPeer.
  apply list_elem_of_lookup in Hin as [idx Hidx].
  pose proof (lookup_lt_Some _ _ _ Hidx) as Hlt.
  destruct (length (backends p) =? 0)%nat eqn:Hn;
    [apply Nat.eqb_eq in Hn; lia |].
  destruct (scan (backends p) (S (current p) mod length (backends p)) 0
              (length (backends p))) as [c |] eqn:Hscan; [eauto |].
  destruct (scan_covers (backends p) (S (current p) mod length (backends p))
              idx Hlt) as (j & Hj & Hmod).
  assert (Alive b = false); [| congruence].
  apply (scan_none _ _ _ _ Hscan j); [lia |]. rewrite Hmod. exact Hidx.
Qed.


Lemma LB_no_peer (T : Transport) (w : World) (r : Request) :
  fst (GetNextPeer (pool w)) = None ->
  exists w',
    LB T w r = Some w'
    /\ last (trace w') = Some (EvRespond StatusServiceUnavailable)
    /\ forwards w' = forwards w.
Proof.
  intros Hnone. unfold LB, budget.
  rewrite Nat.add_1_r. simpl LB_rec.
  destruct (3 <? GetAttemptsFromContext r).
  - eexists. split; [reflexivity |]. simpl. rewrite last_snoc. auto.
  - destruct (GetNextPeer (pool w)) as [[b |] p']; [discriminate |].
    eexists. split; [reflexivity |]. simpl. rewrite last_snoc. auto.
Qed.

(** C4: [GetNextPeer] only returns backends that are alive, it returns one
    whenever the pool has one, it returns none when every backend is dead or
    the pool is empty, and the router then answers 503 without forwarding. *)
Theorem C4_skip_dead_backends (p : ServerPool) :
  (forall b p', GetNextPeer p = (Some b, p') -> Alive b = true /\ b ∈ backends p)
  /\ ((exists b, b ∈ backends p /\ Alive b = true) ->
      exists b p', GetNextPeer p = (Some b, p') /\ Alive b = true)
  /\ ((forall b, b ∈ backends p -> Alive b = false) ->
      fst (GetNextPeer p) = None)
  /\ (forall T w r,
        pool w = p -> fst (GetNextPeer p) = None ->
        exists w',
          LB T w r = Some w'
          /\ last (trace w') = Some (EvRespond StatusServiceUnavailable)
          /\ forwards w' = forwards w).
Proof.
  split; [| split; [| split]].
  - intros b p' H. eapply GetNextPeer_alive. exact H.
  - intros Hex. destruct (GetNextPeer_some p Hex) as (b & p' & Hb).
    exists b, p'. split; [exact Hb |]. eapply GetNextPeer_alive. exact Hb.
  - apply GetNextPeer_all_dead.
  - intros T w r <- Hnone. apply LB_no_peer. exact Hnone.
Qed.

Lemma C4_skip_dead_backends_witness :
  (exists b p', GetNextPeer Sample.one_alive = (Some b, p') /\ Alive b = true)
  /\ fst (GetNextPeer Sample.all_dead) = None
  /\ (exists w',
        LB Sample.all_down (Sample.world Sample.all_dead) Sample.fresh_request
        = Some w'
        /\ last (trace w') = Some (EvRespond 503)
        /\ forwards w' = 0%nat).
Proof.
  split; [| split].
  - apply (proj1 (proj2 (C4_skip_dead_backends Sample.one_alive))).
    exists {| URL := "http://b:8082"; Alive := true |}.
    split; [| reflexivity].
    apply list_elem_of_lookup. exists 1%nat. reflexivity.
  - apply (proj1 (proj2 (proj2 (C4_skip_dead_backends Sample.all_dead)))).
    intros b Hb. apply list_elem_of_In in Hb. vm_compute in Hb.
    destruct Hb as [<- | [<- | [<- | []]]]; reflexivity.
  - apply (proj2 (proj2 (proj2 (C4_skip_dead_backends Sample.all_dead)))
             Sample.all_down (Sample.world Sample.all_dead)
             Sample.fresh_request); reflexivity.
Defined.

(** Selecting a peer moves the cursor and nothing else. *)
Lemma GetNextPeer_backends (p : ServerPool) :
  backends (snd (GetNextPeer p)) = backends p.
Proof.
  unfold GetNextPeer. destruct (length (backends p) =? 0)%nat; reflexivity.
Qed.




(** ** Routing, retry and failover *)

Lemma retry_request_counters (r : Request) :
  GoInt.in_range (GetRetryFromContext r) ->
  GetRetryFromContext r < 3 ->
  GetRetryFromContext (retry_request r) = GetRetryFromContext r + 1
  /\ GetAttemptsFromContext (retry_request r) = GetAttemptsFromContext r.
Proof.
  intros Hr Hlt. unfold retry_request.
  rewrite retry_after_retry, attempts_after_retry.
  rewrite add_one_small by (assumption || lia). auto.
Qed.

Lemma failover_request_counters (r : Request) :
  GoInt.in_range (GetAttemptsFromContext r) ->
  GetAttemptsFromContext r <= 3 ->
  GetAttemptsFromContext (failover_request r) = GetAttemptsFromContext r + 1
  /\ GetRetryFromContext (failover_request r) = GetRetryFromContext r.
Proof.
  intros Hr Hle. unfold failover_request.
  rewrite attempts_after_attempts, retry_after_attempts.
  rewrite add_one_small by assumption. auto.
Qed.

Lemma retry_request_wf (r : Request) :
  wf_request r -> GetRetryFromContext r < 3 -> wf_request (retry_request r).
Proof.
  intros [Ha Hr] Hlt. destruct (retry_request_counters r Hr Hlt) as [Hr' Ha'].
  unfold wf_request. rewrite Hr', Ha'. split; [exact Ha |].
  unfold GoInt.in_range, GoInt.min_int, GoInt.max_int in *. lia.
Qed.

Lemma failover_request_wf (r : Request) :
  wf_request r -> GetAttemptsFromContext r <= 3 ->
  wf_request (failover_request r).
Proof.
  intros [Ha Hr] Hle. destruct (failover_request_counters r Ha Hle) as [Ha' Hr'].
  unfold wf_request. rewrite Hr', Ha'. split; [| exact Hr].
  unfold GoInt.in_range, GoInt.min_int, GoInt.max_int in *. lia.
Qed.

Section Routing.

Variable T : Transport.

Lemma LB_rec_eq (fuel : nat) (w : World) (r : Request) :
  LB_rec T (S fuel) w r
  = if 3 <? GetAttemptsFromContext r
    then Some (emit (EvRespond StatusServiceUnavailable) w)
    else
      match GetNextPeer (pool w) with
      | (Some peer, p') =>
          ServeHTTP_rec T fuel (URL peer)
            (emit (EvSelect (Some (URL peer))) (set_pool p' w)) r
      | (None, p') =>
          Some (emit (EvRespond StatusServiceUnavailable)
                  (emit (EvSelect None) (set_pool p' w)))
      end.
Proof. reflexivity. Qed.

Lemma ServeHTTP_rec_eq (fuel : nat) (u : string) (w : World) (r : Request) :
  ServeHTTP_rec T (S fuel) u w r
  = match T (forwards w) u with
    | Some status =>
        Some (emit (EvRespond status)
                (emit (EvForward u (GetRetryFromContext r) true)
                   (count_forward w)))
    | None =>
        ErrorHandler_rec T fuel u
          (emit (EvForward u (GetRetryFromContext r) false)
             (count_forward w)) r
    end.
Proof. reflexivity. Qed.

Lemma ErrorHandler_rec_eq (fuel : nat) (u : string) (w : World) (r : Request) :
  ErrorHandler_rec T (S fuel) u w r
  = if GetRetryFromContext r <? 3
    then ServeHTTP_rec T fuel u (emit (EvBackoff 10) w) (retry_request r)
    else
      LB_rec T fuel
        (emit (EvMarkDown u)
           (set_pool (MarkBackendStatus (pool w) u false) w))
        (failover_request r).
Proof. reflexivity. Qed.

(** The budget is enough: no call runs out of steps. *)
Lemma rec_total (fuel : nat) :
  (forall w r,
      wf_request r -> (budget r <= fuel)%nat ->
      is_Some (LB_rec T fuel w r))
  /\ (forall u w r,
        wf_request r -> GetAttemptsFromContext r <= 3 ->
        (3 * attempts_left r + 2 * retries_left r <= fuel)%nat ->
        is_Some (ServeHTTP_rec T fuel u w r))
  /\ (forall u w r,
        wf_request r -> GetAttemptsFromContext r <= 3 ->
        (3 * attempts_left r + 2 * retries_left r <= S fuel)%nat ->
        is_Some (ErrorHandler_rec T fuel u w r)).
Proof.
  unfold budget, attempts_left, retries_left.
  induction fuel as [| fuel (IHLB & IHS & IHE)].
  - split; [| split]; intros; lia.
  - split; [| split].
    + intros w r Hwf Hfuel. rewrite LB_rec_eq.
      destruct (Z.ltb_spec 3 (GetAttemptsFromContext r)) as [Hgt | Hle];
        [eauto |].
      destruct (GetNextPeer (pool w)) as [[peer |] p']; [| eauto].
      apply IHS; [exact Hwf | exact Hle | lia].
    + intros u w r Hwf Hle Hfuel. rewrite ServeHTTP_rec_eq.
      destruct (T (forwards w) u); [eauto |].
      apply IHE; [exact Hwf | exact Hle | lia].
    + intros u w r Hwf Hle Hfuel. rewrite ErrorHandler_rec_eq.
      destruct (Z.ltb_spec (GetRetryFromContext r) 3) as [Hlt | Hge].
      * destruct (retry_request_counters r (proj2 Hwf) Hlt) as [Hr' Ha'].
        apply IHS; [apply retry_request_wf; assumption | lia |].
        rewrite Hr', Ha'. lia.
      * destruct (failover_request_counters r (proj1 Hwf) Hle) as [Ha' Hr'].
        apply IHLB; [apply failover_request_wf; assumption |].
        rewrite Hr', Ha'. lia.
Qed.

Lemma LB_total (w : World) (r : Request) :
  wf_request r -> is_Some (LB T w r).
Proof.
  intros Hwf. unfold LB.
  apply (proj1 (rec_total (budget r))); [exact Hwf | lia].
Qed.

End Routing.

Lemma shape_select (sel down : nat) (peer : option string) (es : list Event) :
  (0 < sel)%nat ->
  run_shape (sel - 1) down es ->
  run_shape sel down (EvSelect peer :: es).
Proof.
  unfold run_shape, selections, mark_downs. simpl count_events.
  intros Hsel (Hs & Hd & Hend). split; [lia |]. split; [lia |].
  intros Heq. destruct (Hend Heq) as [Hs' Hlast].
  split; [lia |]. rewrite last_cons, Hlast. reflexivity.
Qed.

Lemma shape_mark_down (sel down : nat) (u : string) (es : list Event) :
  (0 < down)%nat ->
  run_shape sel (down - 1) es ->
  run_shape sel down (EvMarkDown u :: es).
Proof.
  unfold run_shape, selections, mark_downs. simpl count_events.
  intros Hdown (Hs & Hd & Hend). split; [lia |]. split; [lia |].
  intros Heq. destruct Hend as [Hs' Hlast]; [lia |].
  split; [lia |]. rewrite last_cons, Hlast. reflexivity.
Qed.

Lemma shape_other (sel down : nat) (e : Event) (es : list Event) :
  is_select e = false ->
  is_mark_down e = false ->
  run_shape sel down es ->
  run_shape sel down (e :: es).
Proof.
  unfold run_shape, selections, mark_downs. simpl count_events.
  intros -> -> (Hs & Hd & Hend). split; [lia |]. split; [lia |].
  intros Heq. destruct Hend as [Hs' Hlast]; [lia |].
  split; [lia |]. rewrite last_cons, Hlast. reflexivity.
Qed.

Lemma shape_no_failover (sel down : nat) (es : list Event) :
  (0 < down)%nat ->
  mark_downs es = 0%nat ->
  (selections es <= sel)%nat ->
  run_shape sel down es.
Proof. unfold run_shape. intros. split; [lia |]. split; lia. Qed.

Section RoutingShape.

Variable T : Transport.

Lemma rec_shape (fuel : nat) :
  (forall w r w',
      GoInt.in_range (GetAttemptsFromContext r) ->
      LB_rec T fuel w r = Some w' ->
      exists es,
        trace w' = trace w ++ es
        /\ run_shape (attempts_left r) (attempts_left r) es)
  /\ (forall u w r w',
        GoInt.in_range (GetAttemptsFromContext r) ->
        GetAttemptsFromContext r <= 3 ->
        ServeHTTP_rec T fuel u w r = Some w' ->
        exists es,
          trace w' = trace w ++ es
          /\ run_shape (attempts_left r - 1) (attempts_left r) es)
  /\ (forall u w r w',
        GoInt.in_range (GetAttemptsFromContext r) ->
        GetAttemptsFromContext r <= 3 ->
        ErrorHandler_rec T fuel u w r = Some w' ->
        exists es,
          trace w' = trace w ++ es
          /\ run_shape (attempts_left r - 1) (attempts_left r) es).
Proof.
  induction fuel as [| fuel (IHLB & IHS & IHE)].
  - split; [| split]; intros; discriminate.
  - split; [| split].
    + intros w r w' Hrange Hrun. rewrite LB_rec_eq in Hrun.
      destruct (Z.ltb_spec 3 (GetAttemptsFromContext r)) as [Hgt | Hle].
      * injection Hrun as <-. exists [EvRespond StatusServiceUnavailable].
        split; [reflexivity |].
        replace (attempts_left r) with 0%nat by (unfold attempts_left; lia).
        unfold run_shape. simpl. auto.
      * assert (Hleft : (0 < attempts_left r)%nat)
          by (unfold attempts_left; lia).
        destruct (GetNextPeer (pool w)) as [[peer |] p'].
        -- destruct (IHS _ _ _ _ Hrange Hle Hrun) as (es & Htrace & Hshape).
           exists (EvSelect (Some (URL peer)) :: es). split.
           ++ rewrite Htrace. simpl. rewrite <- app_assoc. reflexivity.
           ++ apply shape_select; assumption.
        -- injection Hrun as <-.
           exists [EvSelect None; EvRespond StatusServiceUnavailable]. split.
           ++ simpl. rewrite <- app_assoc. reflexivity.
           ++ apply shape_no_failover; [exact Hleft | reflexivity |].
              unfold selections. simpl. lia.
    + intros u w r w' Hrange Hle Hrun. rewrite ServeHTTP_rec_eq in Hrun.
      assert (Hleft : (0 < attempts_left r)%nat)
        by (unfold attempts_left; lia).
      destruct (T (forwards w) u) as [status |].
      * injection Hrun as <-.
        exists [EvForward u (GetRetryFromContext r) true; EvRespond status].
        split; [simpl; rewrite <- app_assoc; reflexivity |].
        apply shape_no_failover; [exact Hleft | reflexivity |].
        unfold selections. simpl. lia.
      * destruct (IHE _ _ _ _ Hrange Hle Hrun) as (es & Htrace & Hshape).
        exists (EvForward u (GetRetryFromContext r) false :: es). split.
        -- rewrite Htrace. simpl. rewrite <- app_assoc. reflexivity.
        -- apply shape_other; [reflexivity | reflexivity | exact Hshape].
    + intros u w r w' Hrange Hle Hrun. rewrite ErrorHandler_rec_eq in Hrun.
      assert (Hleft : (0 < attempts_left r)%nat)
        by (unfold attempts_left; lia).
      destruct (GetRetryFromContext r <? 3).
      * assert (Ha : GetAttemptsFromContext (retry_request r)
                     = GetAttemptsFromContext r) by reflexivity.
        destruct (IHS u (emit (EvBackoff 10) w) (retry_request r) w')
          as (es & Htrace & Hshape);
          [rewrite Ha; exact Hrange | rewrite Ha; exact Hle | exact Hrun |].
        exists (EvBackoff 10 :: es). split.
        -- rewrite Htrace. simpl. rewrite <- app_assoc. reflexivity.
        -- apply shape_other; [reflexivity | reflexivity |].
           unfold attempts_left in *. rewrite Ha in Hshape. exact Hshape.
      * destruct (failover_request_counters r Hrange Hle) as [Ha _].
        destruct (IHLB _ (failover_request r) w'
                    ltac:(rewrite Ha;
                          unfold GoInt.in_range, GoInt.min_int,
                            GoInt.max_int in *; lia) Hrun)
          as (es & Htrace & Hshape).
        exists (EvMarkDown u :: es). split.
        -- rewrite Htrace. simpl. rewrite <- app_assoc. reflexivity.
        -- replace (attempts_left (failover_request r))
             with (attempts_left r - 1)%nat in Hshape
             by (unfold attempts_left; rewrite Ha; lia).
           apply shape_mark_down; assumption.
Qed.

End RoutingShape.

(** C1: entered with an attempts value above 3, [LB] answers 503 at once:
    the pool, and with it the cursor that [GetNextPeer] advances, is left as
    it was.  A request that arrives without an attempts value is answered
    after at most 3 selections, and when 3 backends in a row were given up on
    the answer is 503 after exactly 3 selections. *)
Theorem C1_attempts_exhausted (T : Transport) (w : World) (r : Request) :
  (3 < GetAttemptsFromContext r ->
   LB T w r = Some (emit (EvRespond StatusServiceUnavailable) w))
  /\ (ctx_Value (Ctx r) Attempts = None ->
      GoInt.in_range (GetRetryFromContext r) ->
      exists w' es,
        LB T w r = Some w'
        /\ trace w' = trace w ++ es
        /\ (selections es <= 3)%nat
        /\ (mark_downs es = 3%nat ->
            selections es = 3%nat
            /\ last es = Some (EvRespond StatusServiceUnavailable))).
Proof.
  split.
  - intros Hgt. unfold LB, budget. rewrite Nat.add_1_r, LB_rec_eq.
    apply Z.ltb_lt in Hgt. rewrite Hgt. reflexivity.
  - intros Hfresh Hretry.
    assert (Ha : GetAttemptsFromContext r = 1)
      by (unfold GetAttemptsFromContext; rewrite Hfresh; reflexivity).
    assert (Hrange : GoInt.in_range (GetAttemptsFromContext r))
      by (rewrite Ha; unfold GoInt.in_range, GoInt.min_int, GoInt.max_int; lia).
    destruct (LB_total T w r (conj Hrange Hretry)) as [w' Hrun].
    exists w'. unfold LB in Hrun.
    destruct (proj1 (rec_shape T (budget r)) w r w' Hrange Hrun)
      as (es & Htrace & Hshape).
    exists es. split; [exact Hrun |]. split; [exact Htrace |].
    replace (attempts_left r) with 3%nat in Hshape
      by (unfold attempts_left; rewrite Ha; reflexivity).
    destruct Hshape as (Hs & _ & Hend). auto.
Qed.

Lemma C1_attempts_exhausted_witness :
  LB Sample.all_down (Sample.world Sample.pool3) Sample.exhausted_request
  = Some (emit (EvRespond 503) (Sample.world Sample.pool3))
  /\ (exists w' es,
        LB Sample.all_down (Sample.world Sample.pool3) Sample.fresh_request
        = Some w'
        /\ trace w' = trace (Sample.world Sample.pool3) ++ es
        /\ (selections es <= 3)%nat
        /\ (mark_downs es = 3%nat ->
            selections es = 3%nat /\ last es = Some (EvRespond 503))).
Proof.
  split.
  - apply (proj1 (C1_attempts_exhausted Sample.all_down
                    (Sample.world Sample.pool3) Sample.exhausted_request)).
    reflexivity.
  - apply (proj2 (C1_attempts_exhausted Sample.all_down
                    (Sample.world Sample.pool3) Sample.fresh_request)).
    + reflexivity.
    + split; discriminate.
Defined.


Section SameBackendRetries.

Variable T : Transport.
Variable u : string.
Variable r : Request.
Hypothesis fails : forall n, T n u = None.
Hypothesis no_retry_value : ctx_Value (Ctx r) Retry = None.






End SameBackendRetries.



(** A backend reached with a retry count of 3 or more is given up on at its
    first failed round trip. *)
Lemma no_retry_left (T : Transport) (u : string) (w : World) (r : Request)
  (fuel : nat) :
  3 <= GetRetryFromContext r ->
  T (forwards w) u = None ->
  ServeHTTP_rec T (2 + fuel) u w r
  = LB_rec T fuel
      (emit (EvMarkDown u)
         (set_pool (MarkBackendStatus (pool w) u false)
            (emit (EvForward u (GetRetryFromContext r) false)
               (count_forward w))))
      (failover_request r).
Proof.
  intros Hge Hfail. simpl Nat.add.
  rewrite ServeHTTP_rec_eq, Hfail, ErrorHandler_rec_eq.
  apply Z.ltb_ge in Hge. rewrite Hge. reflexivity.
Qed.

(** C3: the request that re-enters [LB] after a failover still carries the
    retry count of the backend that was given up on.  With three backends
    whose round trips all fail, the first one selected is forwarded to 4
    times, the next two once each, with retry count 3, before being marked
    down. *)
Theorem C3_failover_keeps_retry_count :
  exists w',
    LB Sample.all_down (Sample.world Sample.pool3) Sample.fresh_request
    = Some w'
    /\ trace w'
       = [ EvSelect (Some "http://b:8082"%string);
           EvForward "http://b:8082" 0 false; EvBackoff 10;
           EvForward "http://b:8082" 1 false; EvBackoff 10;
           EvForward "http://b:8082" 2 false; EvBackoff 10;
           EvForward "http://b:8082" 3 false;
           EvMarkDown "http://b:8082";
           EvSelect (Some "http://c:8083"%string);
           EvForward "http://c:8083" 3 false;
           EvMarkDown "http://c:8083";
           EvSelect (Some "http://a:8081"%string);
           EvForward "http://a:8081" 3 false;
           EvMarkDown "http://a:8081";
           EvRespond 503 ]
    /\ forwards_to "http://b:8082" (trace w') = 4%nat
    /\ forwards_to "http://c:8083" (trace w') = 1%nat
    /\ forwards_to "http://a:8081" (trace w') = 1%nat.
Proof.
  eexists. split; [vm_compute; reflexivity |].
  repeat split; vm_compute; reflexivity.
Qed.

(** ** The health-check loop *)

Section HealthChecker.

Variable probe : Probes.

Lemma step_tick (c c' : Checker) :
  HealthCheck_step probe c TakeTick = Some c' ->
  hc_pool c' = serverpool.HealthCheck (probe (cycles c)) (hc_pool c)
  /\ cycles c' = S (cycles c)
  /\ returned c' = false.
Proof.
  unfold HealthCheck_step.
  destruct (returned c); [discriminate |].
  destruct (tick_ready c); [| discriminate].
  intros Heq. injection Heq as <-. auto.
Qed.







(** The loop of the older variant is woken by the ticker alone and has no
    way to return. *)
Lemma old_loop_keeps_running (ls : list Label) :
  forall c c',
    returned c = false ->
    run_labels (HealthCheck_step_old probe) ls c = Some c' ->
    returned c' = false /\ cycles c' = (cycles c + wakeups ls)%nat.
Proof.
  induction ls as [| l ls IH]; intros c c' Hret Hrun; simpl in Hrun.
  - injection Hrun as <-. simpl. split; [exact Hret | lia].
  - destruct (HealthCheck_step_old probe c l) as [c1 |] eqn:Hstep;
      [| discriminate].
    destruct l; simpl in Hstep; try discriminate.
    + injection Hstep as <-.
      apply IH in Hrun as [H1 H2]; [simpl in *; auto | exact Hret].
    + injection Hstep as <-.
      apply IH in Hrun as [H1 H2]; [simpl in *; auto | exact Hret].
    + destruct (step_tick _ _ Hstep) as (_ & Hc & Hr).
      apply IH in Hrun as [H1 H2]; [| exact Hr].
      simpl. split; [exact H1 | lia].
Qed.

End HealthChecker.




(** * Further properties *)

(** ** The phases of a request *)








Section Phases.

Variable T : Transport.



End Phases.



(** ** The work spent on a request *)

Section Work.

Variable T : Transport.

Lemma rec_work (fuel : nat) :
  (forall w r w',
      wf_request r ->
      LB_rec T fuel w r = Some w' ->
      exists es,
        trace w' = trace w ++ es
        /\ (round_trips es <= attempts_left r + retries_left r)%nat
        /\ (backoffs es <= retries_left r)%nat)
  /\ (forall u w r w',
        wf_request r -> GetAttemptsFromContext r <= 3 ->
        ServeHTTP_rec T fuel u w r = Some w' ->
        exists es,
          trace w' = trace w ++ es
          /\ (round_trips es <= attempts_left r + retries_left r)%nat
          /\ (backoffs es <= retries_left r)%nat)
  /\ (forall u w r w',
        wf_request r -> GetAttemptsFromContext r <= 3 ->
        ErrorHandler_rec T fuel u w r = Some w' ->
        exists es,
          trace w' = trace w ++ es
          /\ (round_trips es + 1 <= attempts_left r + retries_left r)%nat
          /\ (backoffs es <= retries_left r)%nat).
Proof.
  unfold round_trips, backoffs, attempts_left, retries_left.
  induction fuel as [| fuel (IHLB & IHS & IHE)].
  - split; [| split]; intros; discriminate.
  - split; [| split].
    + intros w r w' Hwf Hrun. rewrite LB_rec_eq in Hrun.
      destruct (Z.ltb_spec 3 (GetAttemptsFromContext r)) as [Hgt | Hle].
      * injection Hrun as <-. exists [EvRespond StatusServiceUnavailable].
        split; [reflexivity |]. simpl. lia.
      * destruct (GetNextPeer (pool w)) as [[peer |] p'].
        -- destruct (IHS _ _ _ _ Hwf Hle Hrun) as (es & Htrace & Hrt & Hbo).
           exists (EvSelect (Some (URL peer)) :: es). split.
           ++ rewrite Htrace. simpl. rewrite <- app_assoc. reflexivity.
           ++ simpl. lia.
        -- injection Hrun as <-.
           exists [EvSelect None; EvRespond StatusServiceUnavailable]. split.
           ++ simpl. rewrite <- app_assoc. reflexivity.
           ++ simpl. lia.
    + intros u w r w' Hwf Hle Hrun. rewrite ServeHTTP_rec_eq in Hrun.
      destruct (T (forwards w) u) as [status |].
      * injection Hrun as <-.
        exists [EvForward u (GetRetryFromContext r) true; EvRespond status].
        split; [simpl; rewrite <- app_assoc; reflexivity |]. simpl. lia.
      * destruct (IHE _ _ _ _ Hwf Hle Hrun) as (es & Htrace & Hrt & Hbo).
        exists (EvForward u (GetRetryFromContext r) false :: es). split.
        -- rewrite Htrace. simpl. rewrite <- app_assoc. reflexivity.
        -- simpl. lia.
    + intros u w r w' Hwf Hle Hrun. rewrite ErrorHandler_rec_eq in Hrun.
      destruct (Z.ltb_spec (GetRetryFromContext r) 3) as [Hlt | Hge].
      * destruct (retry_request_counters r (proj2 Hwf) Hlt) as [Hr' Ha'].
        destruct (IHS u (emit (EvBackoff 10) w) (retry_request r) w')
          as (es & Htrace & Hrt & Hbo);
          [apply retry_request_wf; assumption | lia | exact Hrun |].
        rewrite Hr', Ha' in *.
        exists (EvBackoff 10 :: es). split.
        -- rewrite Htrace. simpl. rewrite <- app_assoc. reflexivity.
        -- simpl. lia.
      * destruct (failover_request_counters r (proj1 Hwf) Hle) as [Ha' Hr'].
        destruct (IHLB (emit (EvMarkDown u)
                          (set_pool (MarkBackendStatus (pool w) u false) w))
                    (failover_request r) w')
          as (es & Htrace & Hrt & Hbo);
          [apply failover_request_wf; assumption | exact Hrun |].
        rewrite Hr', Ha' in *.
        exists (EvMarkDown u :: es). split.
        -- rewrite Htrace. simpl. rewrite <- app_assoc. reflexivity.
        -- simpl. lia.
Qed.

End Work.

(** X2: the work [LB] spends on a request is bounded by the counters the
    request arrives with: at most [4 - attempts] selections and backends
    marked down, at most [3 - retries] pauses of 10ms, and at most
    [(4 - attempts) + (3 - retries)] round trips.  For a request without
    counters that is 3 selections, 3 pauses and 6 round trips. *)
Theorem X2_work_per_request (T : Transport) (w : World) (r : Request) :
  wf_request r ->
  exists w' es,
    LB T w r = Some w'
    /\ trace w' = trace w ++ es
    /\ (selections es <= attempts_left r)%nat
    /\ (mark_downs es <= attempts_left r)%nat
    /\ (backoffs es <= retries_left r)%nat
    /\ (round_trips es <= attempts_left r + retries_left r)%nat.
Proof.
  intros Hwf. destruct (LB_total T w r Hwf) as [w' Hrun].
  exists w'. unfold LB in *.
  destruct (proj1 (rec_work T (budget r)) w r w' Hwf Hrun)
    as (es & Htrace & Hrt & Hbo).
  destruct (proj1 (rec_shape T (budget r)) w r w' (proj1 Hwf) Hrun)
    as (es' & Htrace' & Hsel & Hdown & _).
  assert (es' = es) as ->.
  { rewrite Htrace in Htrace'. apply app_inv_head in Htrace'. congruence. }
  exists es. auto 10.
Qed.

Lemma X2_work_per_request_witness :
  exists w' es,
    LB Sample.all_down (Sample.world Sample.pool3) Sample.fresh_request
    = Some w'
    /\ trace w' = trace (Sample.world Sample.pool3) ++ es
    /\ (selections es <= 3)%nat
    /\ (mark_downs es <= 3)%nat
    /\ (backoffs es <= 3)%nat
    /\ (round_trips es <= 3 + 3)%nat.
Proof.
  apply (X2_work_per_request Sample.all_down (Sample.world Sample.pool3)
           Sample.fresh_request).
  split; split; discriminate.
Defined.

(** ** What routing does to the pool *)

Lemma no_revival_refl (bs : list Backend) : no_revival bs bs.
Proof. unfold no_revival. induction bs; constructor; auto. Qed.

Lemma no_revival_trans (bs1 bs2 bs3 : list Backend) :
  no_revival bs1 bs2 -> no_revival bs2 bs3 -> no_revival bs1 bs3.
Proof.
  unfold no_revival. intros H12. revert bs3.
  induction H12 as [| b1 b2 l1 l2 [Hu Ha] _ IH]; intros bs3 H23.
  - inversion H23. constructor.
  - inversion H23 as [| ? b3 ? l3 [Hu' Ha'] Hrest]; subst.
    constructor; [split; [congruence | auto] | auto].
Qed.

Lemma mark_first_down (bs : list Backend) (u : string) :
  no_revival bs (mark_first bs u false).
Proof.
  unfold no_revival. induction bs as [| b bs IH]; simpl; [constructor |].
  destruct (decide (URL b = u)).
  - constructor; [split; [reflexivity | discriminate] |].
    apply no_revival_refl.
  - constructor; [auto | exact IH].
Qed.

Section PoolUnderRouting.

Variable T : Transport.

Lemma rec_no_revival (fuel : nat) :
  (forall w r w',
      LB_rec T fuel w r = Some w' ->
      no_revival (backends (pool w)) (backends (pool w')))
  /\ (forall u w r w',
        ServeHTTP_rec T fuel u w r = Some w' ->
        no_revival (backends (pool w)) (backends (pool w')))
  /\ (forall u w r w',
        ErrorHandler_rec T fuel u w r = Some w' ->
        no_revival (backends (pool w)) (backends (pool w'))).
Proof.
  induction fuel as [| fuel (IHLB & IHS & IHE)].
  - split; [| split]; intros; discriminate.
  - split; [| split].
    + intros w r w' Hrun. rewrite LB_rec_eq in Hrun.
      destruct (3 <? GetAttemptsFromContext r).
      * injection Hrun as <-. apply no_revival_refl.
      * pose proof (GetNextPeer_backends (pool w)) as Hsame.
        destruct (GetNextPeer (pool w)) as [[peer |] p']; simpl in Hsame.
        -- apply IHS in Hrun. simpl in Hrun. rewrite Hsame in Hrun.
           exact Hrun.
        -- injection Hrun as <-. simpl. rewrite Hsame.
           apply no_revival_refl.
    + intros u w r w' Hrun. rewrite ServeHTTP_rec_eq in Hrun.
      destruct (T (forwards w) u) as [status |].
      * injection Hrun as <-. apply no_revival_refl.
      * apply IHE in Hrun. exact Hrun.
    + intros u w r w' Hrun. rewrite ErrorHandler_rec_eq in Hrun.
      destruct (GetRetryFromContext r <? 3).
      * apply IHS in Hrun. exact Hrun.
      * apply IHLB in Hrun. simpl in Hrun.
        eapply no_revival_trans; [apply mark_first_down | exact Hrun].
Qed.

End PoolUnderRouting.

(** X3: routing a request neither adds nor removes nor renames a backend and
    never sets one alive: the pool keeps its backends in order, and a backend
    that is alive afterwards was alive before. *)
Theorem X3_routing_never_revives (T : Transport) (w w' : World) (r : Request) :
  LB T w r = Some w' ->
  length (backends (pool w')) = length (backends (pool w))
  /\ map URL (backends (pool w')) = map URL (backends (pool w))
  /\ (forall idx b',
        backends (pool w') !! idx = Some b' ->
        Alive b' = true ->
        exists b,
          backends (pool w) !! idx = Some b
          /\ URL b = URL b' /\ Alive b = true).
Proof.
  unfold LB. intros Hrun.
  pose proof (proj1 (rec_no_revival T (budget r)) w r w' Hrun) as Hrel.
  unfold no_revival in Hrel. split; [| split].
  - symmetry. eapply Forall2_length. exact Hrel.
  - induction Hrel as [| b b' l l' [Hu _] _ IH]; simpl; congruence.
  - intros idx b' Hidx Halive.
    destruct (Forall2_lookup_r _ _ _ _ _ Hrel Hidx) as (b & Hb & Hu & Ha).
    exists b. auto.
Qed.

Lemma X3_routing_never_revives_witness :
  exists w',
    LB Sample.all_down (Sample.world Sample.one_alive) Sample.fresh_request
    = Some w'
    /\ length (backends (pool w')) = 3%nat
    /\ map URL (backends (pool w'))
       = ["http://a:8081"; "http://b:8082"; "http://c:8083"]%string.
Proof.
  destruct (LB Sample.all_down (Sample.world Sample.one_alive)
              Sample.fresh_request) as [w' |] eqn:Hrun;
    [| vm_compute in Hrun; discriminate].
  exists w'. split; [reflexivity |].
  pose proof (X3_routing_never_revives Sample.all_down
                (Sample.world Sample.one_alive) w' Sample.fresh_request
                Hrun) as (Hlen & Hurls & _).
  split; [exact Hlen | exact Hurls].
Defined.

(** ** Startup and reload, continued *)

Section ConfigurationOutcomes.

Variable E : Env.

Lemma loop_inl_iff (serverList : list string) :
  forall p,
    Forall (parses E) serverList
    <-> exists p', addServerToPool_loop E serverList p = inl p'.
Proof.
  unfold parses.
  induction serverList as [| tok rest IH]; intros p; simpl.
  - split; [eauto | constructor].
  - destruct (url_Parse E tok) as [u |] eqn:Hu.
    + rewrite <- IH. split.
      * intros Hall. inversion Hall. assumption.
      * intros Hall. constructor; [rewrite Hu; eauto | assumption].
    + split.
      * intros Hall. inversion Hall as [| ? ? [u Hsome] _]; subst.
        congruence.
      * intros [p' Hp]. discriminate.
Qed.

Lemma loop_inr_iff (serverList : list string) :
  forall p,
    Exists (fun tok => url_Parse E tok = None) serverList
    <-> exists p', addServerToPool_loop E serverList p = inr p'.
Proof.
  induction serverList as [| tok rest IH]; intros p; simpl.
  - split; [intros Hex; inversion Hex | intros [p' Hp]; discriminate].
  - destruct (url_Parse E tok) as [u |] eqn:Hu.
    + rewrite <- IH. split.
      * intros Hex. inversion Hex; subst; [congruence | assumption].
      * intros Hex. apply Exists_cons_tl. exact Hex.
    + split; [eauto |]. intros _. apply Exists_cons_hd. exact Hu.
Qed.



Lemma loop_all_parse (serverList : list string) (p : ServerPool) :
  Forall (parses E) serverList ->
  exists urls,
    Forall2 (parses_to E) serverList urls
    /\ addServerToPool_loop E serverList p
       = inl {| backends := backends p ++ map alive_backend urls;
                current := current p |}.
Proof.
  intros Hall. apply (loop_inl_iff serverList p) in Hall as [p' Hrun].
  destruct (loop_done E serverList p p' Hrun) as (urls & Hall & Hb & Hc).
  exists urls. split; [exact Hall |].
  rewrite Hrun. destruct p' as [bs c]. simpl in *. subst. reflexivity.
Qed.


Lemma UpdateConfig_done (requestBody : string) (inputConfig : Config)
  (s : Proc) :
  json_Unmarshal E requestBody = (inputConfig, true) ->
  Forall (parses E) (Urls inputConfig) ->
  exists urls,
    Forall2 (parses_to E) (Urls inputConfig) urls
    /\ UpdateConfig E requestBody s
       = Done {| Status := StatusOK;
                 Body := json_Marshal E inputConfig +:+ newline |}
           {| serverPool :=
                {| backends := map alive_backend urls;
                   current := current (serverPool s) |};
              config_json :=
                fst (ioutil_WriteFile E (config_json s)
                       (json_Marshal E inputConfig)) |}.
Proof.
  intros Hdec Hall. unfold UpdateConfig. rewrite Hdec. simpl negb. cbv iota.
  destruct (loop_all_parse _
              (RemoveAllBackend (serverPool s)) Hall) as (urls & Hurls & Hrun).
  exists urls. split; [exact Hurls |].
  unfold addServerToPool. cbv zeta. simpl serverPool. rewrite Hrun.
  reflexivity.
Qed.

End ConfigurationOutcomes.





(** X6: a reload whose payload decodes and whose URLs all parse answers 200
    with the encoded configuration and replaces the pool: afterwards the
    pool holds one alive backend per URL of the payload, in order, and none
    of the backends it held before, so that a backend that was marked down
    is alive again if the payload lists it.  Whether writing [config.json]
    succeeded changes neither the answer nor the pool. *)
Theorem X6_reload_replaces_pool (E : Env) (requestBody : string)
  (inputConfig : Config) (s : Proc) :
  json_Unmarshal E requestBody = (inputConfig, true) ->
  Forall (parses E) (Urls inputConfig) ->
  exists urls resp s',
    Forall2 (parses_to E) (Urls inputConfig) urls
    /\ UpdateConfig E requestBody s = Done resp s'
    /\ Status resp = StatusOK
    /\ Body resp = json_Marshal E inputConfig +:+ newline
    /\ backends (serverPool s') = map alive_backend urls
    /\ (forall b, b ∈ backends (serverPool s') -> Alive b = true)
    /\ current (serverPool s') = current (serverPool s)
    /\ config_json s'
       = fst (ioutil_WriteFile E (config_json s) (json_Marshal E inputConfig)).
Proof.
  intros Hdec Hall.
  destruct (UpdateConfig_done E requestBody inputConfig s Hdec Hall)
    as (urls & Hurls & Hrun).
  exists urls. eexists _, _. split; [exact Hurls |].
  split; [exact Hrun |]. simpl. repeat split.
  intros b Hb. apply list_elem_of_fmap in Hb as (u & -> & _). reflexivity.
Qed.

Lemma X6_reload_replaces_pool_witness :
  exists urls resp s',
    Forall2 (parses_to Sample.env) (Urls Sample.two_urls) urls
    /\ UpdateConfig Sample.env (Sample.encode Sample.two_urls)
         {| serverPool := Sample.all_dead; config_json := None |}
       = Done resp s'
    /\ Status resp = StatusOK
    /\ Body resp = json_Marshal Sample.env Sample.two_urls +:+ newline
    /\ backends (serverPool s') = map alive_backend urls
    /\ (forall b, b ∈ backends (serverPool s') -> Alive b = true)
    /\ current (serverPool s') = 0%nat
    /\ config_json s'
       = fst (ioutil_WriteFile Sample.env None
                (json_Marshal Sample.env Sample.two_urls)).
Proof.
  apply (X6_reload_replaces_pool Sample.env (Sample.encode Sample.two_urls)
           Sample.two_urls
           {| serverPool := Sample.all_dead; config_json := None |}).
  - reflexivity.
  - repeat constructor; eexists; reflexivity.
Defined.

(** X7: a reload stops the process exactly when its payload decodes and one
    of the decoded URLs is refused by [url.Parse]. *)
Theorem X7_reload_fatal_iff (E : Env) (requestBody : string) (s : Proc) :
  is_fatal (UpdateConfig E requestBody s) = true
  <-> snd (json_Unmarshal E requestBody) = true
      /\ Exists (fun tok => url_Parse E tok = None)
           (Urls (fst (json_Unmarshal E requestBody))).
Proof.
  unfold UpdateConfig.
  destruct (json_Unmarshal E requestBody) as [inputConfig ok]. simpl.
  destruct ok; simpl.
  - rewrite (loop_inr_iff E (Urls inputConfig)
               (RemoveAllBackend (serverPool s))).
    unfold addServerToPool. simpl serverPool.
    destruct (addServerToPool_loop E (Urls inputConfig)
                (RemoveAllBackend (serverPool s))) as [p' | p']; simpl.
    + split; [discriminate | intros [_ [q Hq]]; discriminate].
    + split; eauto.
  - split; [discriminate | intros [Hok _]; discriminate].
Qed.

Lemma X7_reload_fatal_iff_witness :
  is_fatal (UpdateConfig Sample.env (Sample.encode Sample.bad_url)
              Sample.running) = true.
Proof.
  apply (proj2 (X7_reload_fatal_iff Sample.env (Sample.encode Sample.bad_url)
                  Sample.running)).
  split; [reflexivity |].
  apply Exists_cons_tl, Exists_cons_hd. reflexivity.
Defined.



(** X9: the balancer is set up on [":" + port] and the reload endpoint on
    [":3000"]; when [main] gets to serving, the two addresses are the same
    exactly when the configured port is empty or is 3000. *)
Theorem X9_default_port_is_the_reload_port (E : Env) (s s' : Proc)
  (port : string) :
  main E s = Done port s' ->
  exists data,
    config_json s = Some data
    /\ (server_Addr port = server2_Addr
        <-> Port (fst (json_Unmarshal E data)) = EmptyString
            \/ Port (fst (json_Unmarshal E data)) = "3000"%string).
Proof.
  unfold main. destruct (config_json s) as [data |]; [| discriminate].
  cbv zeta.
  destruct (length (Urls (fst (json_Unmarshal E data))) =? 0)%nat;
    [discriminate |].
  destruct (addServerToPool E (Urls (fst (json_Unmarshal E data))) s)
    as [[] s1 | s1]; [| discriminate].
  intros Heq. injection Heq as <- _. exists data. split; [reflexivity |].
  unfold server_Addr, server2_Addr.
  destruct (decide (Port (fst (json_Unmarshal E data)) = EmptyString))
    as [Hempty | Hset].
  - split; [auto | reflexivity].
  - split.
    + intros Haddr. right. simpl in Haddr. injection Haddr as Hp. exact Hp.
    + intros [Hempty | ->]; [contradiction | reflexivity].
Qed.

Lemma X9_default_port_is_the_reload_port_witness :
  exists data,
    config_json (restart Sample.running) = Some data
    /\ (server_Addr "3000" = server2_Addr
        <-> Port (fst (json_Unmarshal Sample.env data)) = EmptyString
            \/ Port (fst (json_Unmarshal Sample.env data)) = "3000"%string).
Proof.
  apply (X9_default_port_is_the_reload_port Sample.env
           (restart Sample.running)
           {| serverPool := Sample.pool3;
              config_json := config_json Sample.running |} "3000").
  reflexivity.
Defined.

(** ** The health-check loop, continued *)

Section HealthCheckerSafety.

Variable probe : Probes.

Lemma step_safety (c c1 : Checker) (l : Label) :
  HealthCheck_step probe c l = Some c1 ->
  (cycles c1 + pending c1
   <= cycles c + pending c + ticks_fired [l])%nat
  /\ (ctx_done c1 = true -> ctx_done c = true \/ l = Cancel)
  /\ ((returned c = true -> ctx_done c = true) ->
      returned c1 = true -> ctx_done c1 = true).
Proof.
  unfold HealthCheck_step, pending.
  destruct l, (returned c) eqn:Hr, (tick_ready c) eqn:Ht,
    (ctx_done c) eqn:Hd; intros Hstep; try discriminate;
    injection Hstep as <-; simpl; rewrite ?Ht; simpl;
    (split; [lia | split; [auto | auto]]).
Qed.

Lemma run_safety (ls : list Label) :
  forall c c',
    HealthCheck probe ls c = Some c' ->
    (cycles c' + pending c' <= cycles c + pending c + ticks_fired ls)%nat
    /\ (ctx_done c' = true -> ctx_done c = true \/ Cancel ∈ ls)
    /\ ((returned c = true -> ctx_done c = true) ->
        returned c' = true -> ctx_done c' = true).
Proof.
  unfold HealthCheck.
  induction ls as [| l ls IH]; intros c c' Hrun; cbn [run_labels] in Hrun.
  - injection Hrun as <-. simpl. split; [lia | auto].
  - destruct (HealthCheck_step probe c l) as [c1 |] eqn:Hstep;
      [| discriminate].
    destruct (step_safety _ _ _ Hstep) as (Hn & Hd & Hi).
    destruct (IH _ _ Hrun) as (Hn' & Hd' & Hi').
    split; [| split].
    + assert (ticks_fired (l :: ls) = ticks_fired [l] + ticks_fired ls)%nat
        as -> by (destruct l; reflexivity).
      lia.
    + intros Hdone. destruct (Hd' Hdone) as [H1 | Hin].
      * destruct (Hd H1) as [H0 | ->]; [auto |].
        right. apply elem_of_cons. auto.
      * right. apply elem_of_cons. auto.
    + auto.
Qed.

Lemma old_run_is_run (ls : list Label) :
  forall c c',
    run_labels (HealthCheck_step_old probe) ls c = Some c' ->
    HealthCheck probe ls c = Some c' /\ TakeDone ∉ ls.
Proof.
  unfold HealthCheck.
  induction ls as [| l ls IH]; intros c c' Hrun; cbn [run_labels] in *.
  - split; [exact Hrun | apply not_elem_of_nil].
  - destruct (HealthCheck_step_old probe c l) as [c1 |] eqn:Hstep;
      [| discriminate].
    destruct (IH _ _ Hrun) as [Hrun' Hnot].
    destruct l; cbn [HealthCheck_step_old] in Hstep; try discriminate;
      rewrite Hstep; (split; [exact Hrun' |]);
      intros Hin; apply elem_of_cons in Hin as [Heq | Hin];
      (discriminate || contradiction).
Qed.

End HealthCheckerSafety.

(** X10: the loop runs a health check only on a tick: the health checks it
    ran, plus the tick still waiting in the ticker's channel, never exceed
    the ticks sent (ticks sent while one is waiting are dropped).  The
    context, once cancelled, stays cancelled, and the loop returns only after
    the context was cancelled. *)
Theorem X10_checks_only_on_ticks (probe : Probes) (ls : list Label)
  (c' : Checker) (p : ServerPool) :
  HealthCheck probe ls (start_checker p) = Some c' ->
  (cycles c' + pending c' <= ticks_fired ls)%nat
  /\ (ctx_done c' = true -> Cancel ∈ ls)
  /\ (returned c' = true -> Cancel ∈ ls).
Proof.
  intros Hrun.
  destruct (run_safety probe ls _ _ Hrun) as (Hn & Hd & Hi).
  simpl in Hn, Hd, Hi. split; [exact Hn |].
  assert (Hcancel : ctx_done c' = true -> Cancel ∈ ls).
  { intros Hdone. destruct (Hd Hdone) as [H | H]; [discriminate | exact H]. }
  split; [exact Hcancel |].
  intros Hret. apply Hcancel, Hi; [discriminate | exact Hret].
Qed.

Lemma X10_checks_only_on_ticks_witness :
  exists c',
    HealthCheck (fun _ _ => true)
      [TickFires; TickFires; TakeTick; Cancel; TakeDone]
      (start_checker Sample.pool3) = Some c'
    /\ (cycles c' + pending c' <= 2)%nat
    /\ (returned c' = true -> Cancel ∈ [TickFires; TickFires; TakeTick; Cancel; TakeDone]).
Proof.
  eexists. split; [reflexivity |].
  pose proof (X10_checks_only_on_ticks (fun _ _ => true)
                [TickFires; TickFires; TakeTick; Cancel; TakeDone]
                _ Sample.pool3 eq_refl) as (Hn & _ & Hret).
  split; [exact Hn | exact Hret].
Defined.

(** X11: the loop of the older variant selects on the ticker alone: after any
    schedule it is still running, it has run one health check per wake-up and
    no more than the ticks sent, and it never took a cancellation. *)
Theorem X11_older_loop_never_returns (probe : Probes) (ls : list Label)
  (c' : Checker) (p : ServerPool) :
  run_labels (HealthCheck_step_old probe) ls (start_checker p) = Some c' ->
  returned c' = false
  /\ cycles c' = wakeups ls
  /\ (cycles c' + pending c' <= ticks_fired ls)%nat
  /\ TakeDone ∉ ls.
Proof.
  intros Hrun.
  destruct (old_loop_keeps_running probe ls (start_checker p) c' eq_refl Hrun)
    as [Hret Hcyc].
  destruct (old_run_is_run probe ls _ _ Hrun) as [Hrun' Hnot].
  destruct (run_safety probe ls _ _ Hrun') as (Hn & _ & _).
  simpl in Hcyc, Hn. auto.
Qed.

Lemma X11_older_loop_never_returns_witness :
  exists c',
    run_labels (HealthCheck_step_old (fun _ _ => true))
      [TickFires; TakeTick; Cancel; TickFires; TakeTick]
      (start_checker Sample.pool3) = Some c'
    /\ returned c' = false
    /\ cycles c' = 2%nat.
Proof.
  eexists. split; [reflexivity |].
  pose proof (X11_older_loop_never_returns (fun _ _ => true)
                [TickFires; TakeTick; Cancel; TickFires; TakeTick]
                _ Sample.pool3 eq_refl) as (Hret & Hcyc & _).
  split; [exact Hret | exact Hcyc].
Defined.

(** ** Request contexts, continued *)

(** X12: the two counters live under different keys of the context and are
    read independently: a value set for one is the value read back, whatever
    the context held before, and leaves the other as it was; a binding under
    any other key changes neither; and a value that is not an [int] under
    either key reads as the default (1 attempt, 0 retries). *)
Theorem X12_context_counters_independent (r : Request) (c : Context) :
  (forall n,
      GetRetryFromContext (WithContext r (WithValue c Retry (VInt n))) = n
      /\ GetAttemptsFromContext (WithContext r (WithValue c Retry (VInt n)))
         = GetAttemptsFromContext (WithContext r c))
  /\ (forall n,
        GetAttemptsFromContext (WithContext r (WithValue c Attempts (VInt n)))
        = n
        /\ GetRetryFromContext (WithContext r (WithValue c Attempts (VInt n)))
           = GetRetryFromContext (WithContext r c))
  /\ (forall k v,
        k <> Attempts -> k <> Retry ->
        GetAttemptsFromContext (WithContext r (WithValue c k v))
        = GetAttemptsFromContext (WithContext r c)
        /\ GetRetryFromContext (WithContext r (WithValue c k v))
           = GetRetryFromContext (WithContext r c))
  /\ (forall repr,
        GetAttemptsFromContext
          (WithContext r (WithValue c Attempts (VOther repr))) = 1
        /\ GetRetryFromContext
             (WithContext r (WithValue c Retry (VOther repr))) = 0).
Proof.
  split; [| split; [| split]].
  - intros n. split; reflexivity.
  - intros n. split; reflexivity.
  - intros k v Ha Hr.
    unfold GetAttemptsFromContext, GetRetryFromContext. simpl.
    rewrite !decide_False by assumption. split; reflexivity.
  - intros repr. split; reflexivity.
Qed.

Lemma X12_context_counters_independent_witness :
  GetAttemptsFromContext
    (WithContext Sample.exhausted_request
       (WithValue (Ctx Sample.exhausted_request) (KOther "trace") (VInt 9)))
  = 4
  /\ GetRetryFromContext
       (WithContext Sample.exhausted_request
          (WithValue (Ctx Sample.exhausted_request) (KOther "trace") (VInt 9)))
     = 0.
Proof.
  apply (proj1 (proj2 (proj2 (X12_context_counters_independent
                                Sample.exhausted_request
                                (Ctx Sample.exhausted_request))))
           (KOther "trace") (VInt 9)); discriminate.
Defined.

(** ** Where requests are sent *)

Lemma no_revival_urls (bs bs' : list Backend) :
  no_revival bs bs' -> map URL bs' = map URL bs.
Proof.
  unfold no_revival. intros Hrel.
  induction Hrel as [| b b' l l' [Hu _] _ IH]; simpl; congruence.
Qed.

Section Destinations.

Variable T : Transport.

Lemma rec_destinations (fuel : nat) :
  (forall w r w',
      LB_rec T fuel w r = Some w' ->
      exists es,
        trace w' = trace w ++ es
        /\ forall u n ok,
             EvForward u n ok ∈ es -> u ∈ map URL (backends (pool w)))
  /\ (forall u0 w r w',
        u0 ∈ map URL (backends (pool w)) ->
        ServeHTTP_rec T fuel u0 w r = Some w' ->
        exists es,
          trace w' = trace w ++ es
          /\ forall u n ok,
               EvForward u n ok ∈ es -> u ∈ map URL (backends (pool w)))
  /\ (forall u0 w r w',
        u0 ∈ map URL (backends (pool w)) ->
        ErrorHandler_rec T fuel u0 w r = Some w' ->
        exists es,
          trace w' = trace w ++ es
          /\ forall u n ok,
               EvForward u n ok ∈ es -> u ∈ map URL (backends (pool w))).
Proof.
  induction fuel as [| fuel (IHLB & IHS & IHE)].
  - split; [| split]; intros; discriminate.
  - split; [| split].
    + intros w r w' Hrun. rewrite LB_rec_eq in Hrun.
      destruct (3 <? GetAttemptsFromContext r).
      * injection Hrun as <-. exists [EvRespond StatusServiceUnavailable].
        split; [reflexivity |].
        intros u n ok Hin. apply list_elem_of_singleton in Hin. discriminate.
      * pose proof (GetNextPeer_backends (pool w)) as Hsame.
        destruct (GetNextPeer (pool w)) as [[peer |] p'] eqn:Hnext;
          simpl in Hsame.
        -- apply GetNextPeer_alive in Hnext as [_ Hpeer].
           destruct (IHS (URL peer)
                       (emit (EvSelect (Some (URL peer))) (set_pool p' w))
                       r w') as (es & Htrace & Hes);
             [simpl; rewrite Hsame; apply list_elem_of_fmap; eauto
             | exact Hrun |].
           simpl in Hes. rewrite Hsame in Hes.
           exists (EvSelect (Some (URL peer)) :: es). split.
           ++ rewrite Htrace. simpl. rewrite <- app_assoc. reflexivity.
           ++ intros u n ok Hin.
              apply elem_of_cons in Hin as [Heq | Hin]; [discriminate |].
              eauto.
        -- injection Hrun as <-.
           exists [EvSelect None; EvRespond StatusServiceUnavailable]. split.
           ++ simpl. rewrite <- app_assoc. reflexivity.
           ++ intros u n ok Hin.
              apply elem_of_cons in Hin as [Heq | Hin]; [discriminate |].
              apply list_elem_of_singleton in Hin. discriminate.
    + intros u0 w r w' Hu0 Hrun. rewrite ServeHTTP_rec_eq in Hrun.
      destruct (T (forwards w) u0) as [status |].
      * injection Hrun as <-.
        exists [EvForward u0 (GetRetryFromContext r) true; EvRespond status].
        split; [simpl; rewrite <- app_assoc; reflexivity |].
        intros u n ok Hin.
        apply elem_of_cons in Hin as [Heq | Hin];
          [injection Heq as -> _ _; exact Hu0 |].
        apply list_elem_of_singleton in Hin. discriminate.
      * destruct (IHE u0 (emit (EvForward u0 (GetRetryFromContext r) false)
                            (count_forward w)) r w' Hu0 Hrun)
          as (es & Htrace & Hes).
        exists (EvForward u0 (GetRetryFromContext r) false :: es). split.
        -- rewrite Htrace. simpl. rewrite <- app_assoc. reflexivity.
        -- intros u n ok Hin.
           apply elem_of_cons in Hin as [Heq | Hin];
             [injection Heq as -> _ _; exact Hu0 | eauto].
    + intros u0 w r w' Hu0 Hrun. rewrite ErrorHandler_rec_eq in Hrun.
      destruct (GetRetryFromContext r <? 3).
      * destruct (IHS u0 (emit (EvBackoff 10) w) (retry_request r) w' Hu0 Hrun)
          as (es & Htrace & Hes).
        exists (EvBackoff 10 :: es). split.
        -- rewrite Htrace. simpl. rewrite <- app_assoc. reflexivity.
        -- intros u n ok Hin.
           apply elem_of_cons in Hin as [Heq | Hin]; [discriminate | eauto].
      * destruct (IHLB (emit (EvMarkDown u0)
                          (set_pool (MarkBackendStatus (pool w) u0 false) w))
                    (failover_request r) w' Hrun) as (es & Htrace & Hes).
        simpl in Hes.
        rewrite (no_revival_urls _ _ (mark_first_down (backends (pool w)) u0))
          in Hes.
        exists (EvMarkDown u0 :: es). split.
        -- rewrite Htrace. simpl. rewrite <- app_assoc. reflexivity.
        -- intros u n ok Hin.
           apply elem_of_cons in Hin as [Heq | Hin]; [discriminate | eauto].
Qed.

End Destinations.

(** X13: [LB] sends a request only to addresses of the pool: every selection
    it reports and every round trip it makes is to the URL of a backend that
    the pool held when [LB] was entered. *)
Theorem X13_forwards_stay_in_pool (T : Transport) (w w' : World)
  (r : Request) :
  LB T w r = Some w' ->
  exists es,
    trace w' = trace w ++ es
    /\ forall u n ok,
         EvForward u n ok ∈ es -> u ∈ map URL (backends (pool w)).
Proof.
  unfold LB. intros Hrun.
  exact (proj1 (rec_destinations T (budget r)) w r w' Hrun).
Qed.

Lemma X13_forwards_stay_in_pool_witness :
  exists w' es,
    LB Sample.all_down (Sample.world Sample.pool3) Sample.fresh_request
    = Some w'
    /\ trace w' = trace (Sample.world Sample.pool3) ++ es
    /\ forall u n ok,
         EvForward u n ok ∈ es ->
         u ∈ ["http://a:8081"; "http://b:8082"; "http://c:8083"]%string.
Proof.
  destruct (LB Sample.all_down (Sample.world Sample.pool3)
              Sample.fresh_request) as [w' |] eqn:Hrun;
    [| vm_compute in Hrun; discriminate].
  destruct (X13_forwards_stay_in_pool Sample.all_down
              (Sample.world Sample.pool3) w' Sample.fresh_request Hrun)
    as (es & Htrace & Hes).
  exists w', es. split; [reflexivity |]. split; [exact Htrace | exact Hes].
Defined.
